(** * The rustdoc implementors fragment [implementors/core/marker/trait.Unpin.js]

    The file is one immediately-invoked function: it builds the literal
    table [implementors] (library name -> array of implementor records) and
    then either hands it to [window.register_implementors] or parks it in
    [window.pending_implementors].

    The development embeds the JavaScript the fragment uses: values, the
    ToBoolean conversion behind [if (...)], reads and writes of properties
    of [window], and the call of a function held in a property.  Functions
    that live outside the fragment are interpreted by a [host] that is a
    parameter of the whole development. *)

From Stdlib Require Import ZArith String Ascii List.
From stdpp Require Import base option strings list gmap.

Set Warnings "-register-all".
Local Open Scope string_scope.

(** ** JavaScript values *)

(** Function objects are opaque for the fragment: it only tests and calls
    them.  They are named by an identifier the host interprets. *)
Definition fid : Type := nat.

(** Values are compared structurally.  Numbers are the integer-valued ones
    together with NaN: the fragment stores the literal [1] and never does
    arithmetic.  An object literal keeps its properties in source order. *)
Inductive value : Type :=
  | VUndefined
  | VNull
  | VBool (b : bool)
  | VNum (n : Z)
  | VNaN
  | VStr (s : string)
  | VArr (elems : list value)
  | VObj (props : list (string * value))
  | VFun (f : fid).

(** ToBoolean, the test performed by [if (e)]. *)
Definition truthy (v : value) : bool :=
  match v with
  | VUndefined | VNull | VNaN => false
  | VBool b => b
  | VNum n => negb (Z.eqb n 0)
  | VStr s => negb (String.eqb s "")
  | VArr _ | VObj _ | VFun _ => true
  end.

(** [o[k]] on an object literal: the value of the property, if present. *)
Fixpoint assoc (k : string) (props : list (string * value)) : option value :=
  match props with
  | [] => None
  | (k', v) :: rest => if String.eqb k k' then Some v else assoc k rest
  end.

Definition field (k : string) (o : value) : option value :=
  match o with
  | VObj props => assoc k props
  | _ => None
  end.

(** [Object.keys(o)] *)
Definition keys (o : value) : list string :=
  match o with
  | VObj props => props.*1
  | _ => []
  end.

(** ** The global object and the effects of the fragment *)

(** [window] is a map from property names to values (data properties).  A
    property that was never assigned reads as [undefined]. *)
Abbreviation window := (gmap string value).

Definition get_prop (w : window) (p : string) : value :=
  default VUndefined (w !! p).

(** What the fragment itself does to its environment, in program order. *)
Inductive event : Type :=
  | EvCall (callee : fid) (args : list value)
  | EvWrite (prop : string) (v : value).

(** A statement completes normally or abruptly with a thrown value. *)
Inductive completion (A : Type) : Type :=
  | Normal (a : A)
  | Throw (exn : value).
Arguments Normal {A} a.
Arguments Throw {A} exn.

(** A computation reads and updates [window], may throw, and logs its own
    effects. *)
Definition JS (A : Type) : Type :=
  window → completion A * window * list event.

Definition completion_of {A} (r : completion A * window * list event) : completion A := r.1.1.
Definition window_of {A} (r : completion A * window * list event) : window := r.1.2.
Definition trace_of {A} (r : completion A * window * list event) : list event := r.2.

#[global] Instance JS_ret : MRet JS := λ A a w, (Normal a, w, []).

#[global] Instance JS_bind : MBind JS := λ A B k m w,
  match m w with
  | (Normal a, w1, t1) =>
      match k a w1 with
      | (c, w2, t2) => (c, w2, (t1 ++ t2)%list)
      end
  | (Throw e, w1, t1) => (Throw e, w1, t1)
  end.

(** [window.p] *)
Definition read (p : string) : JS value :=
  λ w, (Normal (get_prop w p), w, []).

(** [window.p = v] *)
Definition write (p : string) (v : value) : JS unit :=
  λ w, (Normal (), <[p := v]> w, [EvWrite p v]).

(** The exception raised by calling something that is not a function (the
    message is engine specific and left out). *)
Definition type_error : value := VObj [("name", VStr "TypeError")].

(** Behaviour of the functions defined outside the fragment: called with
    its arguments in a state of [window], a function returns a value or
    throws, and leaves a state of [window]. *)
Definition host_env : Type :=
  fid → list value → window → completion value * window.

(** [callee(args)]: calling a value that is not a function throws a
    TypeError before anything is invoked.  The receiver of the method call
    is [window] itself, whose state the host function is given. *)
Definition call (host : host_env) (callee : value) (args : list value) : JS value :=
  λ w,
    match callee with
    | VFun f =>
        match host f args w with
        | (c, w') => (c, w', [EvCall f args])
        end
    | _ => (Throw type_error, w, [])
    end.

(** The effects of a trace, by kind. *)
Definition calls (t : list event) : list (fid * list value) :=
  omap (λ ev, match ev with EvCall f args => Some (f, args) | _ => None end) t.

Definition writes (t : list event) : list (string * value) :=
  omap (λ ev, match ev with EvWrite p v => Some (p, v) | _ => None end) t.

(** The table an effect carries across the boundary: the sole argument of a
    call, or the value written. *)
Definition payload (ev : event) : option value :=
  match ev with
  | EvCall _ [v] => Some v
  | EvCall _ _ => None
  | EvWrite _ v => Some v
  end.

(** ** The literal table *)

(** The markup strings of the table are rustdoc's pre-rendered HTML.  They
    are written here with the two shapes that recur in them, an anchor and
    a where-clause span, spelled out once; [markup] concatenates pieces. *)
Definition dq : string := String "034"%char "".
Definition nl : string := String "010"%char "".

Definition markup (pieces : list string) : string := String.concat "" pieces.

(** [ name="val"] *)
Definition attr (name val : string) : string :=
  markup [" "; name; "="; dq; val; dq].

(** [<a class="cls" href="href" title="title">text</a>] *)
Definition a_ (cls href title text : string) : string :=
  markup ["<a"; attr "class" cls; attr "href" href; attr "title" title; ">"; text; "</a>"].

(** [<span class="where fmt-newline">where\n    clause,...</span>]: each
    clause sits on a line of its own, indented by four spaces and closed
    by a comma. *)
Definition where_ (clauses : list (list string)) : string :=
  markup ["<span"; attr "class" "where fmt-newline"; ">where";
          markup ((λ c, markup [nl; "    "; markup c; ","]) <$> clauses);
          "</span>"].

Definition Unpin : string :=
  a_ "trait" "https://doc.rust-lang.org/nightly/core/marker/trait.Unpin.html"
     "trait core::marker::Unpin" "Unpin".

Definition Actor : string :=
  a_ "trait" "actix/prelude/trait.Actor.html" "trait actix::prelude::Actor" "Actor".

(** [[markup, flag, [path, ...]]] *)
Definition entry3 (html : string) (flag : Z) (path : list string) : value :=
  VArr [VStr html; VNum flag; VArr (VStr <$> path)].

(** [[markup]] *)
Definition entry1 (html : string) : value :=
  VArr [VStr html].

(** The records listed under the key actix, in source order. *)
Definition actix_records : list value :=
  [
   entry3
     (markup
      ["impl "; Unpin; " for ";
       a_ "enum" "actix/prelude/enum.ActorState.html" "enum actix::prelude::ActorState" "ActorState"])
     1 ["actix::actor::ActorState"];
   entry3
     (markup
      ["impl "; Unpin; " for ";
       a_ "enum" "actix/prelude/enum.Running.html" "enum actix::prelude::Running" "Running"])
     1 ["actix::actor::Running"];
   entry3
     (markup
      ["impl "; Unpin; " for ";
       a_ "struct" "actix/prelude/struct.SpawnHandle.html" "struct actix::prelude::SpawnHandle" "SpawnHandle"])
     1 ["actix::actor::SpawnHandle"];
   entry3
     (markup
      ["impl&lt;A&gt; "; Unpin; " for ";
       a_ "struct" "actix/prelude/struct.Context.html" "struct actix::prelude::Context" "Context";
       "&lt;A&gt;"])
     1 ["actix::context::Context"];
   entry3
     (markup
      ["impl&lt;A&gt; "; Unpin; " for ";
       a_ "struct" "actix/dev/struct.ContextParts.html" "struct actix::dev::ContextParts" "ContextParts";
       "&lt;A&gt;"])
     1 ["actix::contextimpl::ContextParts"];
   entry3
     (markup
      ["impl&lt;A, C&gt; "; Unpin; " for ";
       a_ "struct" "actix/dev/struct.ContextFut.html" "struct actix::dev::ContextFut" "ContextFut";
       "&lt;A, C&gt;"])
     1 ["actix::contextimpl::ContextFut"];
   entry3
     (markup
      ["impl&lt;M&gt; "; Unpin; " for ";
       a_ "struct" "actix/prelude/struct.MessageResult.html" "struct actix::prelude::MessageResult" "MessageResult";
       "&lt;M&gt;";
       where_
         [["&lt;M as ";
           a_ "trait" "actix/prelude/trait.Message.html" "trait actix::prelude::Message" "Message";
           "&gt;::";
           a_ "associatedtype" "actix/prelude/trait.Message.html#associatedtype.Result" "type actix::prelude::Message::Result" "Result";
           ": "; Unpin]]])
     1 ["actix::handler::MessageResult"];
   entry3
     (markup
      ["impl&lt;A, T&gt; "; Unpin; " for ";
       a_ "struct" "actix/prelude/struct.AtomicResponse.html" "struct actix::prelude::AtomicResponse" "AtomicResponse";
       "&lt;A, T&gt;"])
     1 ["actix::handler::AtomicResponse"];
   entry3
     (markup
      ["impl&lt;I&gt; "; Unpin; " for ";
       a_ "struct" "actix/prelude/struct.Response.html" "struct actix::prelude::Response" "Response";
       "&lt;I&gt;";
       where_
         [["I: "; Unpin]]])
     1 ["actix::handler::Response"];
   entry3
     (markup
      ["impl&lt;A, I&gt; "; Unpin; " for ";
       a_ "struct" "actix/prelude/struct.ActorResponse.html" "struct actix::prelude::ActorResponse" "ActorResponse";
       "&lt;A, I&gt;";
       where_
         [["I: "; Unpin]]])
     1 ["actix::handler::ActorResponse"];
   entry3
     (markup
      ["impl&lt;A&gt; "; Unpin; " for ";
       a_ "struct" "actix/dev/channel/struct.AddressSender.html" "struct actix::dev::channel::AddressSender" "AddressSender";
       "&lt;A&gt;"])
     1 ["actix::address::channel::AddressSender"];
   entry3
     (markup
      ["impl&lt;A&gt; "; Unpin; " for ";
       a_ "struct" "actix/dev/channel/struct.AddressReceiver.html" "struct actix::dev::channel::AddressReceiver" "AddressReceiver";
       "&lt;A&gt;"])
     1 ["actix::address::channel::AddressReceiver"];
   entry3
     (markup
      ["impl&lt;A&gt; "; Unpin; " for ";
       a_ "struct" "actix/dev/struct.Envelope.html" "struct actix::dev::Envelope" "Envelope";
       "&lt;A&gt;"])
     1 ["actix::address::envelope::Envelope"];
   entry3
     (markup
      ["impl&lt;T&gt; "; Unpin; " for ";
       a_ "enum" "actix/prelude/enum.SendError.html" "enum actix::prelude::SendError" "SendError";
       "&lt;T&gt;";
       where_
         [["T: "; Unpin]]])
     1 ["actix::address::SendError"];
   entry3
     (markup
      ["impl "; Unpin; " for ";
       a_ "enum" "actix/prelude/enum.MailboxError.html" "enum actix::prelude::MailboxError" "MailboxError"])
     1 ["actix::address::MailboxError"];
   entry3
     (markup
      ["impl&lt;A&gt; "; Unpin; " for ";
       a_ "struct" "actix/prelude/struct.Addr.html" "struct actix::prelude::Addr" "Addr";
       "&lt;A&gt;"])
     1 ["actix::address::Addr"];
   entry3
     (markup
      ["impl&lt;A&gt; "; Unpin; " for ";
       a_ "struct" "actix/struct.WeakAddr.html" "struct actix::WeakAddr" "WeakAddr";
       "&lt;A&gt;"])
     1 ["actix::address::WeakAddr"];
   entry3
     (markup
      ["impl&lt;M&gt; "; Unpin; " for ";
       a_ "struct" "actix/prelude/struct.Recipient.html" "struct actix::prelude::Recipient" "Recipient";
       "&lt;M&gt;"])
     1 ["actix::address::Recipient"];
   entry3
     (markup
      ["impl&lt;M&gt; "; Unpin; " for ";
       a_ "struct" "actix/struct.WeakRecipient.html" "struct actix::WeakRecipient" "WeakRecipient";
       "&lt;M&gt;"])
     1 ["actix::address::WeakRecipient"];
   entry3
     (markup
      ["impl&lt;A&gt; "; Unpin; " for ";
       a_ "struct" "actix/dev/struct.Mailbox.html" "struct actix::dev::Mailbox" "Mailbox";
       "&lt;A&gt;"])
     1 ["actix::mailbox::Mailbox"];
   entry3
     (markup
      ["impl&lt;T&gt; "; Unpin; " for ";
       a_ "struct" "actix/actors/mocker/struct.Mocker.html" "struct actix::actors::mocker::Mocker" "Mocker";
       "&lt;T&gt;"])
     1 ["actix::actors::mocker::Mocker"];
   entry3
     (markup
      ["impl&lt;T, E&gt; "; Unpin; " for ";
       a_ "struct" "actix/io/struct.Writer.html" "struct actix::io::Writer" "Writer";
       "&lt;T, E&gt;"])
     1 ["actix::io::Writer"];
   entry3
     (markup
      ["impl&lt;I, T, U&gt; "; Unpin; " for ";
       a_ "struct" "actix/io/struct.FramedWrite.html" "struct actix::io::FramedWrite" "FramedWrite";
       "&lt;I, T, U&gt;";
       where_
         [["U: "; Unpin]]])
     1 ["actix::io::FramedWrite"];
   entry3
     (markup
      ["impl&lt;I, S&gt; "; Unpin; " for ";
       a_ "struct" "actix/io/struct.SinkWrite.html" "struct actix::io::SinkWrite" "SinkWrite";
       "&lt;I, S&gt;"])
     1 ["actix::io::SinkWrite"];
   entry3
     (markup
      ["impl "; Unpin; " for ";
       a_ "struct" "actix/registry/struct.Registry.html" "struct actix::registry::Registry" "Registry"])
     1 ["actix::registry::Registry"];
   entry3
     (markup
      ["impl "; Unpin; " for ";
       a_ "struct" "actix/registry/struct.SystemRegistry.html" "struct actix::registry::SystemRegistry" "SystemRegistry"])
     1 ["actix::registry::SystemRegistry"];
   entry3
     (markup
      ["impl&lt;A&gt; "; Unpin; " for ";
       a_ "struct" "actix/sync/struct.SyncArbiter.html" "struct actix::sync::SyncArbiter" "SyncArbiter";
       "&lt;A&gt;"])
     1 ["actix::sync::SyncArbiter"];
   entry3
     (markup
      ["impl&lt;A&gt; "; Unpin; " for ";
       a_ "struct" "actix/sync/struct.SyncContext.html" "struct actix::sync::SyncContext" "SyncContext";
       "&lt;A&gt;"])
     1 ["actix::sync::SyncContext"];
   entry3
     (markup
      ["impl&lt;T&gt; "; Unpin; " for ";
       a_ "struct" "actix/utils/struct.Condition.html" "struct actix::utils::Condition" "Condition";
       "&lt;T&gt;"])
     1 ["actix::utils::Condition"];
   entry1
     (markup
      ["impl&lt;'__pin, Fut, F&gt; "; Unpin; " for ";
       a_ "enum" "actix/fut/try_future/enum.MapErr.html" "enum actix::fut::try_future::MapErr" "MapErr";
       "&lt;Fut, F&gt;";
       where_
         [["__Origin&lt;'__pin, Fut, F&gt;: "; Unpin]]]);
   entry1
     (markup
      ["impl&lt;'__pin, S&gt; "; Unpin; " for ";
       a_ "struct" "actix/fut/stream/struct.Timeout.html" "struct actix::fut::stream::Timeout" "Timeout";
       "&lt;S&gt;";
       where_
         [["__Origin&lt;'__pin, S&gt;: "; Unpin]]]);
   entry1
     (markup
      ["impl&lt;'__pin, S, F, Fut&gt; "; Unpin; " for ";
       a_ "struct" "actix/fut/stream/struct.Then.html" "struct actix::fut::stream::Then" "Then";
       "&lt;S, F, Fut&gt;";
       where_
         [["__Origin&lt;'__pin, S, F, Fut&gt;: "; Unpin]]]);
   entry1
     (markup
      ["impl&lt;'__pin, Fut, F&gt; "; Unpin; " for ";
       a_ "enum" "actix/fut/future/enum.Map.html" "enum actix::fut::future::Map" "Map";
       "&lt;Fut, F&gt;";
       where_
         [["__Origin&lt;'__pin, Fut, F&gt;: "; Unpin]]]);
   entry1
     (markup
      ["impl&lt;'__pin, F&gt; "; Unpin; " for ";
       a_ "struct" "actix/fut/future/struct.Timeout.html" "struct actix::fut::future::Timeout" "Timeout";
       "&lt;F&gt;";
       where_
         [["__Origin&lt;'__pin, F&gt;: "; Unpin]]]);
   entry1
     (markup
      ["impl&lt;'__pin, S, F&gt; "; Unpin; " for ";
       a_ "struct" "actix/fut/stream/struct.Map.html" "struct actix::fut::stream::Map" "Map";
       "&lt;S, F&gt;";
       where_
         [["__Origin&lt;'__pin, S, F&gt;: "; Unpin]]]);
   entry1
     (markup
      ["impl&lt;'__pin, Fut, F&gt; "; Unpin; " for ";
       a_ "enum" "actix/fut/try_future/enum.MapOk.html" "enum actix::fut::try_future::MapOk" "MapOk";
       "&lt;Fut, F&gt;";
       where_
         [["__Origin&lt;'__pin, Fut, F&gt;: "; Unpin]]]);
   entry1
     (markup
      ["impl&lt;'__pin, F, A&gt; "; Unpin; " for ";
       a_ "struct" "actix/fut/future/struct.FutureWrap.html" "struct actix::fut::future::FutureWrap" "FutureWrap";
       "&lt;F, A&gt;";
       where_
         [["__Origin&lt;'__pin, F, A&gt;: "; Unpin];
          ["F: ";
           a_ "trait" "https://doc.rust-lang.org/nightly/core/future/future/trait.Future.html" "trait core::future::future::Future" "Future"];
          ["A: "; Actor]]]);
   entry1
     (markup
      ["impl&lt;'__pin, S, C&gt; "; Unpin; " for ";
       a_ "struct" "actix/fut/stream/struct.Collect.html" "struct actix::fut::stream::Collect" "Collect";
       "&lt;S, C&gt;";
       where_
         [["__Origin&lt;'__pin, S, C&gt;: "; Unpin]]]);
   entry1
     (markup
      ["impl&lt;'__pin, S, F, Fut, T&gt; "; Unpin; " for ";
       a_ "struct" "actix/fut/stream/struct.Fold.html" "struct actix::fut::stream::Fold" "Fold";
       "&lt;S, F, Fut, T&gt;";
       where_
         [["__Origin&lt;'__pin, S, F, Fut, T&gt;: "; Unpin]]]);
   entry1
     (markup
      ["impl&lt;'__pin, S, A&gt; "; Unpin; " for ";
       a_ "struct" "actix/fut/stream/struct.StreamWrap.html" "struct actix::fut::stream::StreamWrap" "StreamWrap";
       "&lt;S, A&gt;";
       where_
         [["__Origin&lt;'__pin, S, A&gt;: "; Unpin];
          ["S: ";
           a_ "trait" "actix/prelude/trait.Stream.html" "trait actix::prelude::Stream" "Stream"];
          ["A: "; Actor]]]);
   entry1
     (markup
      ["impl&lt;'__pin, A: "; Actor; "&gt; "; Unpin; " for ";
       a_ "struct" "actix/utils/struct.IntervalFunc.html" "struct actix::utils::IntervalFunc" "IntervalFunc";
       "&lt;A&gt;";
       where_
         [["__Origin&lt;'__pin, A&gt;: "; Unpin]]]);
   entry1
     (markup
      ["impl&lt;'__pin, A: "; Actor; "&gt; "; Unpin; " for ";
       a_ "struct" "actix/utils/struct.TimerFunc.html" "struct actix::utils::TimerFunc" "TimerFunc";
       "&lt;A&gt;";
       where_
         [["__Origin&lt;'__pin, A&gt;: "; Unpin]]]);
   entry1
     (markup
      ["impl&lt;'__pin, S, I, F, Fut&gt; "; Unpin; " for ";
       a_ "struct" "actix/fut/stream/struct.SkipWhile.html" "struct actix::fut::stream::SkipWhile" "SkipWhile";
       "&lt;S, I, F, Fut&gt;";
       where_
         [["__Origin&lt;'__pin, S, I, F, Fut&gt;: "; Unpin]]]);
   entry1
     (markup
      ["impl&lt;'__pin, A&gt; "; Unpin; " for ";
       a_ "struct" "actix/prelude/struct.Supervisor.html" "struct actix::prelude::Supervisor" "Supervisor";
       "&lt;A&gt;";
       where_
         [["__Origin&lt;'__pin, A&gt;: "; Unpin];
          ["A: ";
           a_ "trait" "actix/prelude/trait.Supervised.html" "trait actix::prelude::Supervised" "Supervised";
           " + "; Actor; "&lt;Context = ";
           a_ "struct" "actix/prelude/struct.Context.html" "struct actix::prelude::Context" "Context";
           "&lt;A&gt;&gt;"]]]);
   entry1
     (markup
      ["impl&lt;'__pin, S&gt; "; Unpin; " for ";
       a_ "struct" "actix/fut/stream/struct.Finish.html" "struct actix::fut::stream::Finish" "Finish";
       "&lt;S&gt;";
       where_
         [["__Origin&lt;'__pin, S&gt;: "; Unpin]]]);
   entry1
     (markup
      ["impl&lt;'__pin, A, B, F&gt; "; Unpin; " for ";
       a_ "enum" "actix/fut/future/enum.Then.html" "enum actix::fut::future::Then" "Then";
       "&lt;A, B, F&gt;";
       where_
         [["__Origin&lt;'__pin, A, B, F&gt;: "; Unpin]]]);
   entry1
     (markup
      ["impl&lt;'__pin, A, B, F&gt; "; Unpin; " for ";
       a_ "enum" "actix/fut/try_future/enum.AndThen.html" "enum actix::fut::try_future::AndThen" "AndThen";
       "&lt;A, B, F&gt;";
       where_
         [["__Origin&lt;'__pin, A, B, F&gt;: "; Unpin]]]);
   entry1
     (markup
      ["impl&lt;'__pin, S, I, F, Fut&gt; "; Unpin; " for ";
       a_ "struct" "actix/fut/stream/struct.TakeWhile.html" "struct actix::fut::stream::TakeWhile" "TakeWhile";
       "&lt;S, I, F, Fut&gt;";
       where_
         [["__Origin&lt;'__pin, S, I, F, Fut&gt;: "; Unpin]]])
  ].

(** The records listed under the key actix_broker, in source order. *)
Definition actix_broker_records : list value :=
  [
   entry3
     (markup
      ["impl&lt;T&gt; "; Unpin; " for ";
       a_ "struct" "actix_broker/struct.Broker.html" "struct actix_broker::Broker" "Broker";
       "&lt;T&gt;";
       where_
         [["T: "; Unpin]]])
     1 ["actix_broker::broker::Broker"];
   entry3
     (markup
      ["impl "; Unpin; " for ";
       a_ "struct" "actix_broker/struct.SystemBroker.html" "struct actix_broker::SystemBroker" "SystemBroker"])
     1 ["actix_broker::broker::SystemBroker"];
   entry3
     (markup
      ["impl "; Unpin; " for ";
       a_ "struct" "actix_broker/struct.ArbiterBroker.html" "struct actix_broker::ArbiterBroker" "ArbiterBroker"])
     1 ["actix_broker::broker::ArbiterBroker"]
  ].

(** [var implementors = { "actix": [...], "actix_broker": [...] };] *)
Definition implementors : value :=
  VObj [("actix", VArr actix_records);
        ("actix_broker", VArr actix_broker_records)].

(** ** The fragment *)

Definition register_implementors : string := "register_implementors".
Definition pending_implementors : string := "pending_implementors".

(** A call evaluated as an expression statement: its value is dropped, an
    exception is kept as it is. *)
Definition discard (c : completion value) : completion unit :=
  match c with
  | Normal _ => Normal ()
  | Throw e => Throw e
  end.

(** [if (window.register_implementors) {window.register_implementors(implementors);}
     else {window.pending_implementors = implementors;}]

    The table is a parameter so that loads of different tables can be
    composed; the fragment itself runs it on its literal. *)
Definition dispatch (host : host_env) (implementors : value) : JS unit :=
  hook ← read register_implementors;
  if truthy hook then
    callee ← read register_implementors;
    _ ← call host callee [implementors];
    mret ()
  else
    write pending_implementors implementors.

(** [(function() {var implementors = {...}; if ... else ...})()] *)
Definition script (host : host_env) : JS unit :=
  dispatch host implementors.

(** ** Reading the table *)

(** Every record of a table, paired with the key it is listed under, in
    source order. *)
Definition records (t : value) : list (string * value) :=
  match t with
  | VObj props =>
      flat_map (λ kv, match kv.2 with
                      | VArr rs => pair kv.1 <$> rs
                      | _ => []
                      end) props
  | _ => []
  end.

(** [r[i]] on an array; reading past the end gives [undefined]. *)
Definition index (r : value) (i : nat) : value :=
  match r with
  | VArr elems => default VUndefined (elems !! i)
  | _ => VUndefined
  end.

(** [typeof v === "string"], [typeof v === "number"]. *)
Definition is_string (v : value) : bool :=
  match v with VStr _ => true | _ => false end.

Definition is_number (v : value) : bool :=
  match v with VNum _ | VNaN => true | _ => false end.

(** [[htmlMarkup: string, flag: number, pathSegments: string[]]] *)
Definition is_triple (r : value) : bool :=
  match r with
  | VArr [m; f; VArr segs] => is_string m && is_number f && forallb is_string segs
  | _ => false
  end.

(** [[htmlMarkup: string]] *)
Definition is_single (r : value) : bool :=
  match r with
  | VArr [m] => is_string m
  | _ => false
  end.

(** [{ [libraryName: string]: Array<R> }] for records accepted by [record_ok]. *)
Definition wire_shape (record_ok : value → bool) (t : value) : bool :=
  match t with
  | VObj props =>
      forallb (λ kv, match kv.2 with
                     | VArr rs => forallb record_ok rs
                     | _ => false
                     end) props
  | _ => false
  end.

(** The pieces of a Rust path between its [::] separators. *)
Fixpoint segments_from (cur : string) (s : string) : list string :=
  match s with
  | EmptyString => [cur]
  | String ":" (String ":" rest) => cur :: segments_from "" rest
  | String c rest => segments_from (cur +:+ String c "") rest
  end.

Definition segments (s : string) : list string := segments_from "" s.

(** ** Statements about one load *)

(** The hook reference is defined: reading it does not give [undefined]. *)
Definition hook_defined (w : window) : Prop :=
  get_prop w register_implementors ≠ VUndefined.

(** The hook reference is absent: never assigned, or [undefined]. *)
Definition hook_absent (w : window) : Prop :=
  get_prop w register_implementors = VUndefined.

(** Exactly one of the two effects happens, and the truthiness of the hook
    reference alone selects which. *)
Definition exactly_one_effect (host : host_env) (w : window) : Prop :=
  let t := trace_of (script host w) in
  ((∃ f, get_prop w register_implementors = VFun f ∧ t = [EvCall f [implementors]])
   ∨ t = [EvWrite pending_implementors implementors])
  ∧ (truthy (get_prop w register_implementors) = true ↔ calls t ≠ [])
  ∧ (truthy (get_prop w register_implementors) = false ↔ writes t ≠ []).

(** The hook is called exactly once, with the table as its only argument,
    and the pending slot reads after the load as it did before. *)
Definition called_once_slot_kept (host : host_env) (w : window) : Prop :=
  let r := script host w in
  (∃ f, get_prop w register_implementors = VFun f
        ∧ calls (trace_of r) = [(f, [implementors])])
  ∧ window_of r !! pending_implementors = w !! pending_implementors.

(** A page on which nothing but the hook reference has been assigned. *)
Definition window_with_hook (v : value) : window :=
  <[register_implementors := v]> ∅.

(** A host whose functions all return [undefined] and touch nothing. *)
Definition quiet_host : host_env := λ _ _ w, (Normal VUndefined, w).

(** A host whose functions all throw the string ["boom"]. *)
Definition throwing_host : host_env := λ _ _ w, (Throw (VStr "boom"), w).

(** ** Statements about the records of the table *)

(** Every record is a (markup, flag, path) triple. *)
Definition all_triples (t : value) : Prop :=
  wire_shape is_triple t = true.

(** Every record is a triple, or the markup string alone. *)
Definition triples_or_singles (t : value) : Prop :=
  wire_shape (λ r, is_triple r || is_single r) t = true.

(** Every record carries the flag [1] as its second component. *)
Definition every_flag_is_one (t : value) : Prop :=
  ∀ k r, (k, r) ∈ records t → index r 1 = VNum 1.

(** The third component of a record, when the record has one. *)
Definition path_of (r : value) : option (list value) :=
  match r with
  | VArr (_ :: _ :: VArr p :: _) => Some p
  | _ => None
  end.

(** The first string of every path sequence is the key of the record. *)
Definition first_path_string_is_key (t : value) : Prop :=
  ∀ k r p, (k, r) ∈ records t → path_of r = Some p → head p = Some (VStr k).

(** [implementors[k][i]] *)
Definition record_at (k : string) (i : nat) : value :=
  index (default VUndefined (field k implementors)) i.

(** Decision procedures for the per-record statements proved below. *)

(** The second component is [1], or the record is the markup alone. *)
Definition flag_ok (r : value) : bool :=
  match index r 1 with
  | VNum n => Z.eqb n 1
  | VUndefined => is_single r
  | _ => false
  end.

(** A record with a path carries one string, whose first segment is the
    key [k] the record is listed under. *)
Definition path_ok (k : string) (r : value) : bool :=
  match path_of r with
  | None => true
  | Some [VStr s] =>
      match head (segments s) with
      | Some k' => String.eqb k' k && String.prefix (k +:+ "::") s
      | None => false
      end
  | Some _ => false
  end.

(** ** Several loads, and what a load depends on *)

(** [typeof v === "function"] *)
Definition is_function (v : value) : bool :=
  match v with VFun _ => true | _ => false end.

(** Fragments of this shape, each with its own table, run one after the
    other by one caller; the run stops at the first load that throws. *)
Fixpoint load_all (host : host_env) (ts : list value) : JS unit :=
  match ts with
  | [] => mret ()
  | t :: rest => dispatch host t ;; load_all host rest
  end.

(** The hook [f] always returns, and leaves itself installed. *)
Definition hook_stays (host : host_env) (f : fid) : Prop :=
  ∀ args w, get_prop w register_implementors = VFun f →
    ∃ v w', host f args w = (Normal v, w')
            ∧ get_prop w' register_implementors = VFun f.

(** Two hosts that differ at most in the values their functions return. *)
Definition same_but_results (host1 host2 : host_env) : Prop :=
  ∀ f args w,
    (host1 f args w).2 = (host2 f args w).2
    ∧ discard (host1 f args w).1 = discard (host2 f args w).1.

(** A host whose functions all return [v] and touch nothing. *)
Definition answering_host (v : value) : host_env := λ _ _ w, (Normal v, w).

(** The strings among a list of values. *)
Definition strings_of (vs : list value) : list string :=
  omap (λ v, match v with VStr s => Some s | _ => None end) vs.

(** The markup strings of a table, [r[0]] for each record [r]. *)
Definition all_markups (t : value) : list string :=
  strings_of ((λ kr, index kr.2 0) <$> records t).

(** The path strings of a table, the elements of [r[2]] for each record. *)
Definition all_paths (t : value) : list string :=
  strings_of (concat (omap (λ kr, path_of kr.2) (records t))).

(** [t[k].length] *)
Definition length_at (k : string) (t : value) : option nat :=
  match field k t with
  | Some (VArr rs) => Some (length rs)
  | _ => None
  end.

(** A hook's exception reaches the caller as it is, and the pending slot
    reads after the load as it did before. *)
Definition thrown_and_slot_kept (host : host_env) (w : window) : Prop :=
  ∀ f e w',
    get_prop w register_implementors = VFun f →
    host f [implementors] w = (Throw e, w') →
    completion_of (script host w) = Throw e
    ∧ window_of (script host w) !! pending_implementors = w !! pending_implementors.

(** A host whose functions all assign the pending slot and then throw. *)
Definition assigning_thrower : host_env :=
  λ _ _ w, (Throw (VStr "boom"), <[pending_implementors := VStr "touched"]> w).

(** ** How [dispatch] runs *)

(** Unfolds the monad down to the reads of [window] and the host calls. *)
Ltac run_js :=
  cbv [script dispatch mbind JS_bind mret JS_ret read write call].

Section Dispatch.

Variable host : host_env.

Lemma dispatch_falsy (t : value) (w : window) :
  truthy (get_prop w register_implementors) = false →
  dispatch host t w
  = (Normal (), <[pending_implementors := t]> w, [EvWrite pending_implementors t]).
Proof.
  intros Hf. run_js. now rewrite Hf.
Qed.

Lemma dispatch_function (t : value) (w : window) (f : fid) :
  get_prop w register_implementors = VFun f →
  dispatch host t w
  = (discard (host f [t] w).1, (host f [t] w).2, [EvCall f [t]]).
Proof.
  intros Hf. run_js. rewrite Hf. cbn [truthy]. rewrite Hf.
  destruct (host f [t] w) as [[v | e] w']; reflexivity.
Qed.

Lemma dispatch_not_callable (t : value) (w : window) :
  truthy (get_prop w register_implementors) = true →
  (∀ f, get_prop w register_implementors ≠ VFun f) →
  dispatch host t w = (Throw type_error, w, []).
Proof.
  intros Ht Hn. run_js. rewrite Ht.
  destruct (get_prop w register_implementors) eqn:E; try reflexivity.
  now destruct (Hn f).
Qed.

(** The write of the pending slot leaves the hook reference alone. *)
Lemma hook_after_write (t : value) (w : window) :
  get_prop (<[pending_implementors := t]> w) register_implementors
  = get_prop w register_implementors.
Proof.
  unfold get_prop. now rewrite lookup_insert_ne.
Qed.

End Dispatch.

(** ** The dispatch: register now or defer *)

(** C1, as stated, fails where the hook reference is truthy but not a
    function: with [window.register_implementors = 1] the test passes, the
    call raises a TypeError, and the load ends having neither invoked a
    hook nor written the pending slot. *)
Lemma truthy_non_function_no_effect :
  truthy (get_prop (window_with_hook (VNum 1)) register_implementors) = true
  ∧ script quiet_host (window_with_hook (VNum 1))
    = (Throw type_error, window_with_hook (VNum 1), [])
  ∧ ¬ exactly_one_effect quiet_host (window_with_hook (VNum 1)).
Proof.
  assert (Hrun : script quiet_host (window_with_hook (VNum 1))
                 = (Throw type_error, window_with_hook (VNum 1), [])).
  { apply dispatch_not_callable; [reflexivity | intros f Hf; discriminate Hf]. }
  split; [reflexivity | split; [exact Hrun |]].
  intros [[(f & Hf & _) | Hw] _].
  - discriminate Hf.
  - rewrite Hrun in Hw. discriminate Hw.
Qed.

(** C1 (amended): for every initial state whose hook reference is falsy or
    a function, the load performs exactly one of the two effects, the call
    of the hook with the table or the write of the table into the pending
    slot, and the truthiness of the reference alone selects which. *)
Theorem one_effect_per_load (host : host_env) (w : window) :
  (truthy (get_prop w register_implementors) = false
   ∨ ∃ f, get_prop w register_implementors = VFun f) →
  exactly_one_effect host w.
Proof.
  intros [Hfalsy | [f Hf]]; unfold exactly_one_effect, script.
  - rewrite (dispatch_falsy host _ _ Hfalsy). cbn [trace_of snd].
    rewrite Hfalsy. split; [now right |].
    split; split; try discriminate; intros H; try reflexivity.
    now destruct H.
  - rewrite (dispatch_function host _ _ _ Hf). cbn [trace_of snd].
    rewrite Hf. split; [left; now exists f |].
    split; split; try discriminate; intros H; try reflexivity.
    now destruct H.
Qed.

Lemma one_effect_per_load_witness :
  (truthy (get_prop (window_with_hook (VFun 7)) register_implementors) = false
   ∨ ∃ f, get_prop (window_with_hook (VFun 7)) register_implementors = VFun f)
  ∧ exactly_one_effect quiet_host (window_with_hook (VFun 7)).
Proof.
  assert (H : truthy (get_prop (window_with_hook (VFun 7)) register_implementors) = false
              ∨ ∃ f, get_prop (window_with_hook (VFun 7)) register_implementors = VFun f)
    by (right; exists 7%nat; reflexivity).
  split; [exact H | exact (one_effect_per_load quiet_host _ H)].
Defined.

(** C2, as stated, fails for a hook reference that is defined but falsy:
    with [window.register_implementors = null] nothing is called and the
    pending slot is overwritten. *)
Lemma defined_null_hook_not_called :
  hook_defined (window_with_hook VNull)
  ∧ calls (trace_of (script quiet_host (window_with_hook VNull))) = []
  ∧ window_of (script quiet_host (window_with_hook VNull)) !! pending_implementors
    = Some implementors
  ∧ window_with_hook VNull !! pending_implementors = None
  ∧ ¬ called_once_slot_kept quiet_host (window_with_hook VNull).
Proof.
  assert (Hrun : script quiet_host (window_with_hook VNull)
                 = (Normal (),
                    <[pending_implementors := implementors]> (window_with_hook VNull),
                    [EvWrite pending_implementors implementors])).
  { apply dispatch_falsy. reflexivity. }
  split; [intros H; discriminate H |].
  rewrite Hrun. cbn [trace_of window_of fst snd].
  split; [reflexivity |].
  split; [apply lookup_insert_eq |].
  split; [reflexivity |].
  intros [(f & Hf & _) _]. discriminate Hf.
Qed.

(** C2 (amended): for every initial state in which the hook reference holds
    a function, the load calls that function exactly once, with the table
    as its only argument, and writes nothing itself: the state of [window]
    after the load is the one the call left, so the pending slot reads as
    before whenever the hook's own body does not assign it. *)
Theorem function_hook_called_once (host : host_env) (w : window) (f : fid) :
  get_prop w register_implementors = VFun f →
  trace_of (script host w) = [EvCall f [implementors]]
  ∧ calls (trace_of (script host w)) = [(f, [implementors])]
  ∧ writes (trace_of (script host w)) = []
  ∧ window_of (script host w) = (host f [implementors] w).2
  ∧ ((host f [implementors] w).2 !! pending_implementors = w !! pending_implementors →
     called_once_slot_kept host w).
Proof.
  intros Hf.
  assert (Hr : script host w
               = (discard (host f [implementors] w).1,
                  (host f [implementors] w).2, [EvCall f [implementors]])).
  { unfold script. now apply dispatch_function. }
  unfold called_once_slot_kept.
  rewrite Hr. cbn [trace_of window_of fst snd].
  repeat split; try reflexivity; try assumption.
  exists f. now split.
Qed.

Lemma function_hook_called_once_witness :
  get_prop (window_with_hook (VFun 7)) register_implementors = VFun 7
  ∧ calls (trace_of (script quiet_host (window_with_hook (VFun 7))))
    = [(7%nat, [implementors])]
  ∧ writes (trace_of (script quiet_host (window_with_hook (VFun 7)))) = []
  ∧ called_once_slot_kept quiet_host (window_with_hook (VFun 7)).
Proof.
  assert (Hf : get_prop (window_with_hook (VFun 7)) register_implementors = VFun 7)
    by reflexivity.
  destruct (function_hook_called_once quiet_host _ 7%nat Hf)
    as (_ & Hc & Hw & _ & Hkept).
  split; [exact Hf |]. split; [exact Hc |]. split; [exact Hw |].
  apply Hkept. reflexivity.
Defined.

(** C3: for every initial state in which the hook is absent, the load ends
    normally with the pending slot holding a value equal to the table
    literal, and no function is called. *)
Theorem absent_hook_defers (host : host_env) (w : window) :
  hook_absent w →
  script host w
  = (Normal (), <[pending_implementors := implementors]> w,
     [EvWrite pending_implementors implementors])
  ∧ window_of (script host w) !! pending_implementors = Some implementors
  ∧ calls (trace_of (script host w)) = [].
Proof.
  intros Habs.
  assert (Hrun : script host w
                 = (Normal (), <[pending_implementors := implementors]> w,
                    [EvWrite pending_implementors implementors])).
  { apply dispatch_falsy. now rewrite Habs. }
  rewrite Hrun. cbn [trace_of window_of fst snd].
  split; [reflexivity |]. split; [apply lookup_insert_eq | reflexivity].
Qed.

Lemma absent_hook_defers_witness :
  hook_absent ∅
  ∧ window_of (script throwing_host ∅) !! pending_implementors = Some implementors
  ∧ calls (trace_of (script throwing_host ∅)) = [].
Proof.
  assert (Habs : hook_absent ∅) by reflexivity.
  split; [exact Habs |].
  exact (proj2 (absent_hook_defers throwing_host ∅ Habs)).
Defined.

(** C4: with the hook absent, a load overwrites the pending slot whatever
    it held, a previously stored table included, and ends normally; two
    loads in a row, the hook absent both times, leave the slot holding the
    table of the second load alone. *)
Theorem pending_slot_overwritten (host : host_env) (w : window) (t1 t2 prev : value) :
  hook_absent w →
  (completion_of (dispatch host t1 (<[pending_implementors := prev]> w)) = Normal ()
   ∧ window_of (dispatch host t1 (<[pending_implementors := prev]> w))
       !! pending_implementors = Some t1)
  ∧ hook_absent (window_of (dispatch host t1 w))
  ∧ completion_of ((dispatch host t1 ;; dispatch host t2) w) = Normal ()
  ∧ window_of ((dispatch host t1 ;; dispatch host t2) w)
    = <[pending_implementors := t2]> w
  ∧ window_of ((dispatch host t1 ;; dispatch host t2) w) !! pending_implementors
    = Some t2
  ∧ window_of ((script host ;; script host) w) = window_of (script host w).
Proof.
  intros Habs.
  assert (Hfalsy : ∀ w', hook_absent w' →
            truthy (get_prop w' register_implementors) = false)
    by (intros w' H; now rewrite H).
  assert (Hkeep : ∀ t, hook_absent (<[pending_implementors := t]> w))
    by (intros t; unfold hook_absent; now rewrite hook_after_write).
  assert (Htwice : ∀ a b, (dispatch host a ;; dispatch host b) w
            = (Normal (), <[pending_implementors := b]> w,
               [EvWrite pending_implementors a; EvWrite pending_implementors b])).
  { intros a b. unfold mbind at 1, JS_bind.
    rewrite (dispatch_falsy host a w (Hfalsy _ Habs)).
    rewrite (dispatch_falsy host b _ (Hfalsy _ (Hkeep a))).
    now rewrite insert_insert_eq. }
  rewrite (dispatch_falsy host t1 _ (Hfalsy _ (Hkeep prev))).
  rewrite (dispatch_falsy host t1 w (Hfalsy _ Habs)).
  unfold script. rewrite !Htwice, (dispatch_falsy host _ w (Hfalsy _ Habs)).
  cbn [completion_of window_of fst snd].
  repeat split; try reflexivity; try apply lookup_insert_eq.
  apply Hkeep.
Qed.

Lemma pending_slot_overwritten_witness :
  hook_absent ∅
  ∧ window_of ((dispatch quiet_host (VStr "first") ;; dispatch quiet_host (VStr "second")) ∅)
      !! pending_implementors = Some (VStr "second")
  ∧ window_of ((script quiet_host ;; script quiet_host) ∅)
    = window_of (script quiet_host ∅).
Proof.
  assert (Habs : hook_absent ∅) by reflexivity.
  destruct (pending_slot_overwritten quiet_host ∅ (VStr "first") (VStr "second")
              VNull Habs) as (_ & _ & _ & _ & Hsecond & Hsame).
  split; [exact Habs |]. split; [exact Hsecond | exact Hsame].
Defined.

(** C8, as stated, fails for a hook that assigns the pending slot before
    it throws: the exception reaches the caller, but the slot then holds
    what the hook put there, not what it held before the load. *)
Lemma assigning_hook_changes_slot :
  get_prop (window_with_hook (VFun 7)) register_implementors = VFun 7
  ∧ completion_of (script assigning_thrower (window_with_hook (VFun 7)))
    = Throw (VStr "boom")
  ∧ window_with_hook (VFun 7) !! pending_implementors = None
  ∧ window_of (script assigning_thrower (window_with_hook (VFun 7)))
      !! pending_implementors
    = Some (VStr "touched")
  ∧ ¬ thrown_and_slot_kept assigning_thrower (window_with_hook (VFun 7)).
Proof.
  assert (Hf : get_prop (window_with_hook (VFun 7)) register_implementors = VFun 7)
    by reflexivity.
  assert (Hrun : script assigning_thrower (window_with_hook (VFun 7))
                 = (Throw (VStr "boom"),
                    <[pending_implementors := VStr "touched"]> (window_with_hook (VFun 7)),
                    [EvCall 7%nat [implementors]])).
  { unfold script. now rewrite (dispatch_function assigning_thrower _ _ _ Hf). }
  assert (Hslot : window_of (script assigning_thrower (window_with_hook (VFun 7)))
                    !! pending_implementors = Some (VStr "touched")).
  { rewrite Hrun. cbn [window_of fst snd]. apply lookup_insert_eq. }
  split; [exact Hf |].
  split; [now rewrite Hrun |].
  split; [reflexivity |].
  split; [exact Hslot |].
  intros H. destruct (H 7%nat (VStr "boom") _ Hf eq_refl) as [_ Hkept].
  rewrite Hslot in Hkept. discriminate Hkept.
Qed.

(** C8 (amended): when the hook is a function whose call throws, the load
    ends with that same exception, unmodified: nothing is caught, wrapped
    or logged, the only effect of the load is the one call, and the load
    itself writes nothing.  The state of [window] after the load is exactly
    the one the hook's call left, so the pending slot holds what the hook
    left there: its value from before the load unless the hook's own body
    assigned it. *)
Theorem hook_exception_propagates
    (host : host_env) (w w' : window) (f : fid) (e : value) :
  get_prop w register_implementors = VFun f →
  host f [implementors] w = (Throw e, w') →
  script host w = (Throw e, w', [EvCall f [implementors]])
  ∧ completion_of (script host w) = Throw e
  ∧ calls (trace_of (script host w)) = [(f, [implementors])]
  ∧ writes (trace_of (script host w)) = []
  ∧ window_of (script host w) = w'
  ∧ (w' !! pending_implementors = w !! pending_implementors →
     thrown_and_slot_kept host w).
Proof.
  intros Hf Hthrow.
  assert (Hrun : script host w = (Throw e, w', [EvCall f [implementors]])).
  { unfold script. rewrite (dispatch_function host _ _ _ Hf). now rewrite Hthrow. }
  unfold thrown_and_slot_kept.
  rewrite Hrun. cbn [completion_of trace_of window_of fst snd].
  do 5 (split; [reflexivity |]).
  intros Hslot g e2 w2 Hg Hthrow2.
  rewrite Hf in Hg. injection Hg as <-.
  rewrite Hthrow in Hthrow2. injection Hthrow2 as <- <-.
  split; [reflexivity | exact Hslot].
Qed.

Lemma hook_exception_propagates_witness :
  get_prop (window_with_hook (VFun 7)) register_implementors = VFun 7
  ∧ throwing_host 7%nat [implementors] (window_with_hook (VFun 7))
    = (Throw (VStr "boom"), window_with_hook (VFun 7))
  ∧ completion_of (script throwing_host (window_with_hook (VFun 7)))
    = Throw (VStr "boom")
  ∧ writes (trace_of (script throwing_host (window_with_hook (VFun 7)))) = []
  ∧ window_of (script throwing_host (window_with_hook (VFun 7)))
    = window_with_hook (VFun 7)
  ∧ thrown_and_slot_kept throwing_host (window_with_hook (VFun 7)).
Proof.
  assert (Hf : get_prop (window_with_hook (VFun 7)) register_implementors = VFun 7)
    by reflexivity.
  assert (Ht : throwing_host 7%nat [implementors] (window_with_hook (VFun 7))
               = (Throw (VStr "boom"), window_with_hook (VFun 7)))
    by reflexivity.
  destruct (hook_exception_propagates throwing_host _ _ 7%nat _ Hf Ht)
    as (_ & Hc & _ & Hw & Hwin & Hkept).
  split; [exact Hf |]. split; [exact Ht |]. split; [exact Hc |].
  split; [exact Hw |]. split; [exact Hwin |].
  apply Hkept. reflexivity.
Defined.

(** C9: the test is on truthiness, not definedness: for every initial state
    in which the hook reference is defined but falsy ([null], [0], [false]
    and the empty string are such values), the load calls nothing and
    writes the table into the pending slot. *)
Theorem falsy_hook_defers :
  Forall (λ v, v ≠ VUndefined ∧ truthy v = false)
         [VNull; VNum 0; VBool false; VStr ""]
  ∧ ∀ (host : host_env) (w : window),
      hook_defined w →
      truthy (get_prop w register_implementors) = false →
      script host w
      = (Normal (), <[pending_implementors := implementors]> w,
         [EvWrite pending_implementors implementors])
      ∧ calls (trace_of (script host w)) = []
      ∧ window_of (script host w) !! pending_implementors = Some implementors.
Proof.
  split.
  - repeat constructor; discriminate.
  - intros host w _ Hfalsy.
    assert (Hrun : script host w
                   = (Normal (), <[pending_implementors := implementors]> w,
                      [EvWrite pending_implementors implementors]))
      by now apply dispatch_falsy.
    rewrite Hrun. cbn [trace_of window_of fst snd].
    split; [reflexivity |]. split; [reflexivity | apply lookup_insert_eq].
Qed.

Lemma falsy_hook_defers_witness :
  hook_defined (window_with_hook (VNum 0))
  ∧ truthy (get_prop (window_with_hook (VNum 0)) register_implementors) = false
  ∧ calls (trace_of (script quiet_host (window_with_hook (VNum 0)))) = []
  ∧ window_of (script quiet_host (window_with_hook (VNum 0))) !! pending_implementors
    = Some implementors.
Proof.
  assert (Hd : hook_defined (window_with_hook (VNum 0)))
    by (intros H; discriminate H).
  assert (Hf : truthy (get_prop (window_with_hook (VNum 0)) register_implementors) = false)
    by reflexivity.
  split; [exact Hd |]. split; [exact Hf |].
  exact (proj2 (proj2 falsy_hook_defers quiet_host _ Hd Hf)).
Defined.

(** ** The table handed across the boundary *)

Lemma records_forallb (p : string → value → bool) (t : value) :
  forallb (λ kr, p kr.1 kr.2) (records t) = true →
  ∀ k r, (k, r) ∈ records t → p k r = true.
Proof.
  intros H k r Hin. rewrite forallb_forall in H.
  apply (H (k, r)). now apply list_elem_of_In.
Qed.

(** A load leaves one of three traces. *)
Lemma dispatch_trace_cases (host : host_env) (t : value) (w : window) :
  trace_of (dispatch host t w) = []
  ∨ (∃ f, trace_of (dispatch host t w) = [EvCall f [t]])
  ∨ trace_of (dispatch host t w) = [EvWrite pending_implementors t].
Proof.
  destruct (truthy (get_prop w register_implementors)) eqn:Ht;
    [| right; right; now rewrite (dispatch_falsy host t w Ht)].
  destruct (get_prop w register_implementors) as [| | | | | | | |f] eqn:Hv;
    try (right; left; exists f; now rewrite (dispatch_function host t w f Hv));
    left; rewrite (dispatch_not_callable host t w);
    first [reflexivity | now rewrite Hv | intros f Hf; rewrite Hv in Hf; discriminate Hf].
Qed.

(** Whatever the load hands over is the table it was given. *)
Lemma dispatch_payload (host : host_env) (t : value) (w : window) :
  Forall (λ ev, payload ev = Some t) (trace_of (dispatch host t w)).
Proof.
  destruct (dispatch_trace_cases host t w) as [H | [[f H] | H]];
    rewrite H; now repeat constructor.
Qed.

(** C5: a load whose hook reference is a function or falsy hands a table
    over, as the sole argument of the one call of the hook or as the value
    stored in the pending slot, and that table is the compiled-in literal,
    element for element: its keys are exactly "actix" and "actix_broker",
    "actix_broker" lists exactly 3 records and "actix" 48.  No load hands
    over anything else. *)
Theorem table_keys_and_lengths (host : host_env) (w : window) :
  Forall (λ ev, payload ev = Some implementors) (trace_of (script host w))
  ∧ ((truthy (get_prop w register_implementors) = false
      ∨ ∃ f, get_prop w register_implementors = VFun f) →
     ∃ t,
       ((∃ f, get_prop w register_implementors = VFun f
              ∧ trace_of (script host w) = [EvCall f [t]])
        ∨ (trace_of (script host w) = [EvWrite pending_implementors t]
           ∧ window_of (script host w) !! pending_implementors = Some t))
       ∧ t = implementors
       ∧ keys t = ["actix"; "actix_broker"]
       ∧ (∀ k, is_Some (field k t) ↔ k = "actix" ∨ k = "actix_broker")
       ∧ length_at "actix" t = Some 48%nat
       ∧ length_at "actix_broker" t = Some 3%nat).
Proof.
  split; [apply dispatch_payload |].
  intros Hhook. exists implementors.
  split.
  - destruct Hhook as [Hf | [f Hf]]; unfold script.
    + right. rewrite (dispatch_falsy host _ _ Hf). cbn [trace_of window_of fst snd].
      split; [reflexivity | apply lookup_insert_eq].
    + left. exists f. split; [exact Hf |].
      now rewrite (dispatch_function host _ _ _ Hf).
  - split; [reflexivity |]. split; [reflexivity |].
    split; [| split; reflexivity].
    intros k. unfold implementors, field. cbn [assoc]. split.
    + destruct (String.eqb k "actix") eqn:E1;
        [apply String.eqb_eq in E1; now left |].
      destruct (String.eqb k "actix_broker") eqn:E2;
        [apply String.eqb_eq in E2; now right |].
      intros [x Hx]. discriminate Hx.
    + intros [-> | ->]; cbn; eauto.
Qed.

Lemma table_keys_and_lengths_witness :
  (truthy (get_prop (window_with_hook (VFun 7)) register_implementors) = false
   ∨ ∃ f, get_prop (window_with_hook (VFun 7)) register_implementors = VFun f)
  ∧ ∃ t,
      ((∃ f, get_prop (window_with_hook (VFun 7)) register_implementors = VFun f
             ∧ trace_of (script quiet_host (window_with_hook (VFun 7))) = [EvCall f [t]])
       ∨ (trace_of (script quiet_host (window_with_hook (VFun 7)))
          = [EvWrite pending_implementors t]
          ∧ window_of (script quiet_host (window_with_hook (VFun 7)))
              !! pending_implementors = Some t))
      ∧ t = implementors
      ∧ keys t = ["actix"; "actix_broker"]
      ∧ (∀ k, is_Some (field k t) ↔ k = "actix" ∨ k = "actix_broker")
      ∧ length_at "actix" t = Some 48%nat
      ∧ length_at "actix_broker" t = Some 3%nat.
Proof.
  assert (H : truthy (get_prop (window_with_hook (VFun 7)) register_implementors) = false
              ∨ ∃ f, get_prop (window_with_hook (VFun 7)) register_implementors = VFun f)
    by (right; exists 7%nat; reflexivity).
  split; [exact H |].
  exact (proj2 (table_keys_and_lengths quiet_host (window_with_hook (VFun 7))) H).
Defined.

(** The markup strings, rebuilt from their pieces, have the lengths of the
    string literals of the source, record by record. *)
Lemma markup_lengths :
  (λ kr, match index kr.2 0 with VStr m => String.length m | _ => 0%nat end)
    <$> records implementors
  = [252; 243; 261; 267; 274; 274; 731; 294; 453; 474; 294; 300;
     262; 450; 258; 258; 253; 273; 268; 259; 277; 260; 464; 269;
     254; 272; 273; 273; 269; 503; 489; 504; 486; 489; 486; 500;
     773; 498; 513; 728; 595; 586; 528; 854; 486; 492; 509; 528;
     444; 261; 264]%nat.
Proof. vm_compute. reflexivity. Qed.

(** Membership in [records], from a position in the flattened table. *)
Lemma record_at_position (k : string) (i j : nat) :
  records implementors !! j = Some (k, record_at k i) →
  (k, record_at k i) ∈ records implementors.
Proof. apply list_elem_of_lookup_2. Qed.

(** C6, as stated, fails on the literal: the records of "actix" from index
    29 on are one-element arrays holding the markup string alone, with no
    flag and no path, and that table is what the load hands over. *)
Lemma markup_only_record_not_a_triple :
  trace_of (script quiet_host ∅) = [EvWrite pending_implementors implementors]
  ∧ is_single (record_at "actix" 29) = true
  ∧ is_triple (record_at "actix" 29) = false
  ∧ ¬ all_triples implementors.
Proof.
  split; [reflexivity |].
  split; [vm_compute; reflexivity |].
  split; [vm_compute; reflexivity |].
  intros H. vm_compute in H. discriminate H.
Qed.

(** C6 (amended): every record in every sequence of the table handed
    across the boundary is either the triple of a markup string, a numeric
    flag and a sequence of strings, or a one-element array holding the
    markup string alone; the literal has 32 records of the first shape and
    19 of the second. *)
Theorem table_wire_shape (host : host_env) (w : window) :
  triples_or_singles implementors
  ∧ Forall (λ ev, ∃ t, payload ev = Some t ∧ triples_or_singles t)
           (trace_of (script host w))
  ∧ length (List.filter (λ kr, is_triple kr.2) (records implementors)) = 32%nat
  ∧ length (List.filter (λ kr, is_single kr.2) (records implementors)) = 19%nat.
Proof.
  assert (Hshape : triples_or_singles implementors) by (vm_compute; reflexivity).
  split; [exact Hshape |].
  split; [| split; vm_compute; reflexivity].
  eapply Forall_impl; [apply dispatch_payload |].
  intros ev Hev. now exists implementors.
Qed.

(** C7, as stated, fails on the literal: the record at index 29 of "actix"
    has no second component, so reading its flag gives [undefined]. *)
Lemma markup_only_record_has_no_flag :
  ("actix", record_at "actix" 29) ∈ records implementors
  ∧ index (record_at "actix" 29) 1 = VUndefined
  ∧ ¬ every_flag_is_one implementors.
Proof.
  assert (Hin : ("actix", record_at "actix" 29) ∈ records implementors)
    by (apply (record_at_position _ _ 29); vm_compute; reflexivity).
  assert (Hflag : index (record_at "actix" 29) 1 = VUndefined)
    by (vm_compute; reflexivity).
  split; [exact Hin | split; [exact Hflag |]].
  intros H. specialize (H _ _ Hin). rewrite Hflag in H. discriminate H.
Qed.

(** C7 (amended): in every record of the compiled-in table that has a
    second component, that component is the number 1; the other records
    are the markup string alone. *)
Theorem flag_is_one_when_present (k : string) (r : value) :
  (k, r) ∈ records implementors →
  index r 1 = VNum 1 ∨ (is_single r = true ∧ index r 1 = VUndefined).
Proof.
  intros Hin.
  assert (Hall : forallb (λ kr, (λ _ r', flag_ok r') kr.1 kr.2)
                         (records implementors) = true)
    by (vm_compute; reflexivity).
  pose proof (records_forallb _ _ Hall _ _ Hin) as Hok. cbv beta in Hok.
  unfold flag_ok in Hok.
  destruct (index r 1); try discriminate Hok.
  - right. now split.
  - left. f_equal. now apply Z.eqb_eq.
Qed.

Lemma flag_is_one_when_present_witness :
  ("actix_broker", record_at "actix_broker" 2) ∈ records implementors
  ∧ (index (record_at "actix_broker" 2) 1 = VNum 1
     ∨ (is_single (record_at "actix_broker" 2) = true
        ∧ index (record_at "actix_broker" 2) 1 = VUndefined)).
Proof.
  assert (Hin : ("actix_broker", record_at "actix_broker" 2) ∈ records implementors)
    by (apply (record_at_position _ _ 50); vm_compute; reflexivity).
  split; [exact Hin | exact (flag_is_one_when_present _ _ Hin)].
Defined.

(** C10, as stated, fails on the literal: the path sequence of a record
    holds one string, the whole path joined by [::], so its first string is
    "actix::actor::ActorState" and not the key "actix". *)
Lemma joined_path_is_not_the_key :
  ("actix", record_at "actix" 0) ∈ records implementors
  ∧ path_of (record_at "actix" 0) = Some [VStr "actix::actor::ActorState"]
  ∧ ¬ first_path_string_is_key implementors.
Proof.
  assert (Hin : ("actix", record_at "actix" 0) ∈ records implementors)
    by (apply (record_at_position _ _ 0); vm_compute; reflexivity).
  assert (Hp : path_of (record_at "actix" 0) = Some [VStr "actix::actor::ActorState"])
    by (vm_compute; reflexivity).
  split; [exact Hin | split; [exact Hp |]].
  intros H. specialize (H _ _ _ Hin Hp). discriminate H.
Qed.

(** C10 (amended): for every record of the compiled-in table that carries a
    path sequence as its third component, the sequence holds exactly one
    string, a path joined by [::], and the first segment of that path is
    the library-name key under which the record is listed. *)
Theorem path_first_segment_is_key (k : string) (r : value) (p : list value) :
  (k, r) ∈ records implementors →
  path_of r = Some p →
  ∃ s, p = [VStr s]
       ∧ head (segments s) = Some k
       ∧ String.prefix (k +:+ "::") s = true.
Proof.
  intros Hin Hp.
  assert (Hall : forallb (λ kr, path_ok kr.1 kr.2) (records implementors) = true)
    by (vm_compute; reflexivity).
  pose proof (records_forallb _ _ Hall _ _ Hin) as Hok.
  unfold path_ok in Hok. rewrite Hp in Hok.
  destruct p as [| [| | | | | s | | |] [|]]; try discriminate Hok.
  destruct (head (segments s)) as [k' |] eqn:Hhead; [| discriminate Hok].
  apply andb_prop in Hok as [Hk Hpre].
  apply String.eqb_eq in Hk. subst k'.
  exists s. split; [reflexivity | split; [exact Hhead | exact Hpre]].
Qed.

Lemma path_first_segment_is_key_witness :
  ("actix_broker", record_at "actix_broker" 2) ∈ records implementors
  ∧ path_of (record_at "actix_broker" 2)
    = Some [VStr "actix_broker::broker::ArbiterBroker"]
  ∧ ∃ s, [VStr "actix_broker::broker::ArbiterBroker"] = [VStr s]
         ∧ head (segments s) = Some "actix_broker"
         ∧ String.prefix ("actix_broker" +:+ "::") s = true.
Proof.
  assert (Hin : ("actix_broker", record_at "actix_broker" 2) ∈ records implementors)
    by (apply (record_at_position _ _ 50); vm_compute; reflexivity).
  assert (Hp : path_of (record_at "actix_broker" 2)
               = Some [VStr "actix_broker::broker::ArbiterBroker"])
    by (vm_compute; reflexivity).
  split; [exact Hin | split; [exact Hp |]].
  exact (path_first_segment_is_key _ _ _ Hin Hp).
Defined.

(** ** Beyond one load: edge cases, frame and composition *)

(** The three ways a load can go, by the value of the hook reference. *)
Lemma dispatch_cases (host : host_env) (t : value) (w : window) :
  (truthy (get_prop w register_implementors) = false
   ∧ dispatch host t w
     = (Normal (), <[pending_implementors := t]> w, [EvWrite pending_implementors t]))
  ∨ (∃ f, get_prop w register_implementors = VFun f
          ∧ dispatch host t w
            = (discard (host f [t] w).1, (host f [t] w).2, [EvCall f [t]]))
  ∨ (truthy (get_prop w register_implementors) = true
     ∧ is_function (get_prop w register_implementors) = false
     ∧ dispatch host t w = (Throw type_error, w, [])).
Proof.
  destruct (truthy (get_prop w register_implementors)) eqn:Ht;
    [| left; split; [reflexivity | now apply dispatch_falsy]].
  destruct (is_function (get_prop w register_implementors)) eqn:Hfun.
  - right; left.
    destruct (get_prop w register_implementors) as [| | | | | | | |f] eqn:Hv;
      try discriminate Hfun.
    exists f. split; [reflexivity | now apply dispatch_function].
  - right; right. split; [reflexivity | split; [reflexivity |]].
    apply dispatch_not_callable; [exact Ht |].
    intros f Hf. rewrite Hf in Hfun. discriminate Hfun.
Qed.

Lemma calls_app (t1 t2 : list event) :
  calls (t1 ++ t2) = (calls t1 ++ calls t2)%list.
Proof. apply omap_app. Qed.

Lemma writes_app (t1 t2 : list event) :
  writes (t1 ++ t2) = (writes t1 ++ writes t2)%list.
Proof. apply omap_app. Qed.

(** X1: a load that calls nothing changes no property of [window] other
    than the pending slot; the hook reference in particular stays as it
    was. *)
Theorem load_frame (host : host_env) (t : value) (w : window) (p : string) :
  calls (trace_of (dispatch host t w)) = [] →
  p ≠ pending_implementors →
  window_of (dispatch host t w) !! p = w !! p.
Proof.
  intros Hcalls Hp.
  destruct (dispatch_cases host t w) as [[_ H] | [(f & _ & H) | (_ & _ & H)]];
    rewrite H in *; cbn [trace_of window_of fst snd] in *.
  - now apply lookup_insert_ne.
  - discriminate Hcalls.
  - reflexivity.
Qed.

Lemma load_frame_witness :
  calls (trace_of (dispatch quiet_host (VNum 5) (window_with_hook VNull))) = []
  ∧ register_implementors ≠ pending_implementors
  ∧ window_of (dispatch quiet_host (VNum 5) (window_with_hook VNull))
      !! register_implementors
    = window_with_hook VNull !! register_implementors.
Proof.
  assert (Hc : calls (trace_of (dispatch quiet_host (VNum 5) (window_with_hook VNull))) = [])
    by reflexivity.
  assert (Hp : register_implementors ≠ pending_implementors)
    by (intros H; discriminate H).
  split; [exact Hc | split; [exact Hp |]].
  exact (load_frame quiet_host (VNum 5) (window_with_hook VNull) _ Hc Hp).
Defined.

(** X2: when the hook reference is truthy but not a function (a non-zero
    number, a non-empty string, [true], an array, an object), the load
    throws a TypeError, calls nothing and writes nothing: the table is
    neither delivered nor parked, and [window] is as before. *)
Theorem non_function_hook_loses_table (host : host_env) (t : value) (w : window) :
  truthy (get_prop w register_implementors) = true →
  is_function (get_prop w register_implementors) = false →
  completion_of (dispatch host t w) = Throw type_error
  ∧ trace_of (dispatch host t w) = []
  ∧ window_of (dispatch host t w) = w.
Proof.
  intros Ht Hfun.
  destruct (dispatch_cases host t w) as [[Hf _] | [(f & Hv & _) | (_ & _ & H)]].
  - rewrite Hf in Ht. discriminate Ht.
  - rewrite Hv in Hfun. discriminate Hfun.
  - now rewrite H.
Qed.

Lemma non_function_hook_loses_table_witness :
  truthy (get_prop (window_with_hook (VStr "later")) register_implementors) = true
  ∧ is_function (get_prop (window_with_hook (VStr "later")) register_implementors) = false
  ∧ completion_of (dispatch quiet_host (VNum 5) (window_with_hook (VStr "later")))
    = Throw type_error
  ∧ trace_of (dispatch quiet_host (VNum 5) (window_with_hook (VStr "later"))) = []
  ∧ window_of (dispatch quiet_host (VNum 5) (window_with_hook (VStr "later")))
    = window_with_hook (VStr "later").
Proof.
  assert (Ht : truthy (get_prop (window_with_hook (VStr "later")) register_implementors)
               = true) by reflexivity.
  assert (Hfun : is_function (get_prop (window_with_hook (VStr "later"))
                                register_implementors) = false) by reflexivity.
  split; [exact Ht | split; [exact Hfun |]].
  exact (non_function_hook_loses_table quiet_host (VNum 5) _ Ht Hfun).
Defined.

(** X3: a load ends with an exception in exactly two situations: the hook
    reference is truthy and not a function, and the exception is the
    TypeError of the call; or the hook is a function whose call throws,
    and the exception is the hook's.  With a falsy hook reference a load
    never throws. *)
Theorem load_throws_iff (host : host_env) (t : value) (w : window) (e : value) :
  completion_of (dispatch host t w) = Throw e
  ↔ (truthy (get_prop w register_implementors) = true
     ∧ is_function (get_prop w register_implementors) = false
     ∧ e = type_error)
    ∨ (∃ f, get_prop w register_implementors = VFun f
            ∧ (host f [t] w).1 = Throw e).
Proof.
  destruct (dispatch_cases host t w) as [[Hf H] | [(f & Hv & H) | (Ht & Hfun & H)]];
    rewrite H; cbn [completion_of fst].
  - split; [discriminate |].
    intros [(Ht & _) | (f & Hv & _)].
    + rewrite Hf in Ht. discriminate Ht.
    + rewrite Hv in Hf. discriminate Hf.
  - split.
    + intros Hd. right. exists f. split; [exact Hv |].
      destruct (host f [t] w).1 as [v | x]; cbn [discard] in Hd;
        [discriminate Hd | injection Hd as ->; reflexivity].
    + intros [(_ & Hfun & _) | (g & Hg & Hthrow)].
      * rewrite Hv in Hfun. discriminate Hfun.
      * rewrite Hv in Hg. injection Hg as <-. now rewrite Hthrow.
  - split.
    + intros He. injection He as <-. now left.
    + intros [(_ & _ & ->) | (g & Hg & _)]; [reflexivity |].
      rewrite Hg in Hfun. discriminate Hfun.
Qed.

(** X4: the value the hook returns is not consulted: two hosts whose
    functions leave the same state, and throw the same exceptions, give
    the same load, whatever their functions return. *)
Theorem hook_result_not_consulted
    (host1 host2 : host_env) (t : value) (w : window) :
  same_but_results host1 host2 →
  dispatch host1 t w = dispatch host2 t w.
Proof.
  intros Hsame.
  destruct (dispatch_cases host1 t w) as [[Hf H] | [(f & Hv & H) | (Ht & Hfun & H)]];
    rewrite H.
  - symmetry. now apply dispatch_falsy.
  - rewrite (dispatch_function host2 t w f Hv).
    destruct (Hsame f [t] w) as [-> ->]. reflexivity.
  - symmetry. apply dispatch_not_callable; [exact Ht |].
    intros f Hf. rewrite Hf in Hfun. discriminate Hfun.
Qed.

Lemma hook_result_not_consulted_witness :
  same_but_results quiet_host (answering_host (VNum 5))
  ∧ dispatch quiet_host implementors (window_with_hook (VFun 7))
    = dispatch (answering_host (VNum 5)) implementors (window_with_hook (VFun 7)).
Proof.
  assert (Hsame : same_but_results quiet_host (answering_host (VNum 5)))
    by (intros f args w; split; reflexivity).
  split; [exact Hsame |].
  exact (hook_result_not_consulted _ _ implementors (window_with_hook (VFun 7)) Hsame).
Defined.

(** X5: a load never reads the pending slot.  Whatever the slot held
    before, the load performs the same effects; and when the hook
    reference is not a function it also ends the same way, with the same
    state of [window] in the deferring case. *)
Theorem load_ignores_pending_slot
    (host : host_env) (t prev : value) (w : window) :
  trace_of (dispatch host t (<[pending_implementors := prev]> w))
  = trace_of (dispatch host t w)
  ∧ (is_function (get_prop w register_implementors) = false →
     completion_of (dispatch host t (<[pending_implementors := prev]> w))
     = completion_of (dispatch host t w)
     ∧ (truthy (get_prop w register_implementors) = false →
        window_of (dispatch host t (<[pending_implementors := prev]> w))
        = window_of (dispatch host t w))).
Proof.
  pose proof (hook_after_write prev w) as Hhook.
  destruct (dispatch_cases host t w) as [[Hf H] | [(f & Hv & H) | (Ht & Hfun & H)]];
    rewrite H; cbn [trace_of completion_of window_of fst snd].
  - rewrite dispatch_falsy by now rewrite Hhook.
    cbn [trace_of completion_of window_of fst snd].
    split; [reflexivity |]. intros _. split; [reflexivity |].
    intros _. apply insert_insert_eq.
  - rewrite (dispatch_function host t _ f) by now rewrite Hhook.
    cbn [trace_of completion_of window_of fst snd].
    split; [reflexivity |]. intros Hfun. rewrite Hv in Hfun. discriminate Hfun.
  - rewrite dispatch_not_callable.
    + cbn [trace_of completion_of window_of fst snd].
      split; [reflexivity |]. intros _. split; [reflexivity |].
      intros Hf. rewrite Hf in Ht. discriminate Ht.
    + now rewrite Hhook.
    + intros f Hf. rewrite Hhook in Hf. rewrite Hf in Hfun. discriminate Hfun.
Qed.

Lemma load_ignores_pending_slot_witness :
  is_function (get_prop (∅ : window) register_implementors) = false
  ∧ truthy (get_prop (∅ : window) register_implementors) = false
  ∧ window_of (dispatch quiet_host (VNum 5) (<[pending_implementors := VStr "stale"]> ∅))
    = window_of (dispatch quiet_host (VNum 5) ∅).
Proof.
  assert (Hfun : is_function (get_prop (∅ : window) register_implementors) = false)
    by reflexivity.
  assert (Hf : truthy (get_prop (∅ : window) register_implementors) = false)
    by reflexivity.
  split; [exact Hfun | split; [exact Hf |]].
  exact (proj2 (proj2 (load_ignores_pending_slot quiet_host (VNum 5) (VStr "stale") ∅)
                  Hfun) Hf).
Defined.

(** The state after a run of deferring loads: one assignment per table. *)
Lemma load_all_falsy (host : host_env) (ts : list value) :
  ∀ w, truthy (get_prop w register_implementors) = false →
    load_all host ts w
    = (Normal (), foldl (λ w' t, <[pending_implementors := t]> w') w ts,
       EvWrite pending_implementors <$> ts).
Proof.
  induction ts as [| t rest IH]; intros w Hf; [reflexivity |].
  cbn [load_all]. unfold mbind, JS_bind.
  rewrite (dispatch_falsy host t w Hf).
  rewrite IH by now rewrite hook_after_write.
  reflexivity.
Qed.

Lemma assignments_other (ts : list value) (p : string) :
  p ≠ pending_implementors →
  ∀ w : window,
    foldl (λ w' t, <[pending_implementors := t]> w') w ts !! p = w !! p.
Proof.
  intros Hp. induction ts as [| t rest IH]; intros w; [reflexivity |].
  cbn [foldl]. rewrite IH. now apply lookup_insert_ne.
Qed.

Lemma assignments_slot (ts : list value) :
  ∀ w : window,
    foldl (λ w' t, <[pending_implementors := t]> w') w ts !! pending_implementors
    = from_option Some (w !! pending_implementors) (last ts).
Proof.
  induction ts as [| t rest IH]; intros w; [reflexivity |].
  cbn [foldl]. rewrite IH, lookup_insert_eq.
  destruct rest as [| t' rest']; [reflexivity |].
  change (last (t :: t' :: rest')) with (last (t' :: rest')).
  destruct (last (t' :: rest')) as [x |] eqn:Hlast; [reflexivity |].
  apply last_None in Hlast. discriminate Hlast.
Qed.

(** X6: any number of loads in a row, the hook reference falsy at the
    start, all defer and end normally; the pending slot ends holding the
    table of the last load alone (its earlier value if there was no load),
    one write per load is performed in order, and no other property of
    [window] changes. *)
Theorem deferred_loads_last_wins (host : host_env) (ts : list value) (w : window) :
  truthy (get_prop w register_implementors) = false →
  completion_of (load_all host ts w) = Normal ()
  ∧ trace_of (load_all host ts w) = EvWrite pending_implementors <$> ts
  ∧ window_of (load_all host ts w) !! pending_implementors
    = from_option Some (w !! pending_implementors) (last ts)
  ∧ ∀ p, p ≠ pending_implementors → window_of (load_all host ts w) !! p = w !! p.
Proof.
  intros Hf. rewrite (load_all_falsy host ts w Hf).
  cbn [completion_of trace_of window_of fst snd].
  split; [reflexivity |]. split; [reflexivity |].
  split; [apply assignments_slot |].
  intros p Hp. now apply assignments_other.
Qed.

Lemma deferred_loads_last_wins_witness :
  truthy (get_prop (window_with_hook VNull) register_implementors) = false
  ∧ window_of (load_all throwing_host [VNum 1; VNum 2; VNum 3] (window_with_hook VNull))
      !! pending_implementors
    = Some (VNum 3)
  ∧ trace_of (load_all throwing_host [VNum 1; VNum 2; VNum 3] (window_with_hook VNull))
    = [EvWrite pending_implementors (VNum 1); EvWrite pending_implementors (VNum 2);
       EvWrite pending_implementors (VNum 3)].
Proof.
  assert (Hf : truthy (get_prop (window_with_hook VNull) register_implementors) = false)
    by reflexivity.
  destruct (deferred_loads_last_wins throwing_host [VNum 1; VNum 2; VNum 3]
              (window_with_hook VNull) Hf) as (_ & Htrace & Hslot & _).
  split; [exact Hf | split; [exact Hslot | exact Htrace]].
Defined.

(** X7: with a hook that always returns and leaves itself installed, any
    number of loads in a row each deliver their own table to it, once and
    in order; nothing is deferred and the run ends normally. *)
Theorem hooked_loads_deliver_in_order
    (host : host_env) (f : fid) (ts : list value) (w : window) :
  hook_stays host f →
  get_prop w register_implementors = VFun f →
  completion_of (load_all host ts w) = Normal ()
  ∧ calls (trace_of (load_all host ts w)) = (λ t, (f, [t])) <$> ts
  ∧ writes (trace_of (load_all host ts w)) = []
  ∧ get_prop (window_of (load_all host ts w)) register_implementors = VFun f.
Proof.
  intros Hstay. revert w.
  induction ts as [| t rest IH]; intros w Hf.
  - cbn. now repeat split.
  - destruct (Hstay [t] w Hf) as (v & w' & Hhost & Hf').
    destruct (IH w' Hf') as (Hc & Hcalls & Hwrites & Hhook).
    cbn [load_all]. unfold mbind, JS_bind.
    rewrite (dispatch_function host t w f Hf), Hhost.
    cbn [discard fst snd].
    destruct (load_all host rest w') as [[c w2] t2].
    cbn [completion_of trace_of window_of fst snd] in *.
    rewrite calls_app, writes_app, Hcalls, Hwrites.
    now repeat split.
Qed.

Lemma hooked_loads_deliver_in_order_witness :
  hook_stays quiet_host 7%nat
  ∧ get_prop (window_with_hook (VFun 7)) register_implementors = VFun 7
  ∧ calls (trace_of (load_all quiet_host [VNum 1; VNum 2] (window_with_hook (VFun 7))))
    = [(7%nat, [VNum 1]); (7%nat, [VNum 2])]
  ∧ writes (trace_of (load_all quiet_host [VNum 1; VNum 2] (window_with_hook (VFun 7))))
    = [].
Proof.
  assert (Hstay : hook_stays quiet_host 7%nat)
    by (intros args w Hw; exists VUndefined, w; split; [reflexivity | exact Hw]).
  assert (Hf : get_prop (window_with_hook (VFun 7)) register_implementors = VFun 7)
    by reflexivity.
  destruct (hooked_loads_deliver_in_order quiet_host 7%nat [VNum 1; VNum 2]
              (window_with_hook (VFun 7)) Hstay Hf) as (_ & Hcalls & Hwrites & _).
  split; [exact Hstay | split; [exact Hf | split; [exact Hcalls | exact Hwrites]]].
Defined.

(** X8: the literal lists nothing twice: its keys are distinct, the markup
    strings of its 51 records are pairwise distinct, and so are the path
    strings of the 32 records that carry one. *)
Theorem table_has_no_duplicates :
  NoDup (keys implementors)
  ∧ length (all_markups implementors) = 51%nat
  ∧ NoDup (all_markups implementors)
  ∧ length (all_paths implementors) = 32%nat
  ∧ NoDup (all_paths implementors).
Proof.
  repeat split;
    first [ apply (bool_decide_unpack _); vm_compute; exact I
          | vm_compute; reflexivity ].
Qed.
